(** * jupyter-lite example material: notebooks and workspace descriptor

    The repository's source consists of three documents: two nbformat-4
    notebooks (the virtual-drive example and the PIL demo) and one YAML
    workspace descriptor.  They are data, so the embedding is a document
    tree per document, transcribed field by field, with the accessors and
    the small analyses (Python call lexer, shell line splitter, file-system
    interpreter) that the properties are stated over. *)

From stdpp Require Import base strings list gmap.
From Stdlib Require Import ZArith Ascii.

(** ** Characters that cannot be written inside a literal *)

Definition dq : string := String (Ascii.ascii_of_nat 34) "".
Definition nl : string := String (Ascii.ascii_of_nat 10) "".
Definition sq_char : ascii := Ascii.ascii_of_nat 39.
Definition dq_char : ascii := Ascii.ascii_of_nat 34.
Definition nl_char : ascii := Ascii.ascii_of_nat 10.
Definition sp_char : ascii := Ascii.ascii_of_nat 32.

(** ** Document trees (JSON values, and the YAML subset the descriptor uses) *)

#[warnings="-register-all"]
Inductive value : Type :=
| VNull
| VBool (b : bool)
| VNum (n : Z)
| VStr (s : string)
| VArr (items : list value)
| VObj (fields : list (string * value)).

Inductive format := Json | Yaml.

Record document := { doc_format : format; doc_root : value }.

(** A YAML literal block scalar ([|], clip chomping): every line followed by a
    newline. *)
Fixpoint block (ls : list string) : string :=
  match ls with
  | [] => ""
  | l :: ls' => l +:+ nl +:+ block ls'
  end.

Module VirtualDrive.

Definition trusted_md : value := VObj [("trusted", VBool true)].

Definition code (src : string) : value :=
  VObj [("cell_type", VStr "code");
        ("source", VStr src);
        ("metadata", trusted_md);
        ("execution_count", VNull);
        ("outputs", VArr [])].

Definition markdown (src : string) (md : value) : value :=
  VObj [("cell_type", VStr "markdown");
        ("source", VStr src);
        ("metadata", md)].

Definition intro : string :=
  "## Virtual file system support" +:+ nl +:+ nl +:+
  "Pyolite mounts a virtual `/drive` directory which allows access to files that are provided by JupyterLab." +:+ nl +:+ nl +:+
  "**NOTE:** The virtual file system **does not work when in private mode under Firefox** and you'll get permission errors. It will also fail to work if you **hard refresh** the page.".

Definition cells : list value :=
  [ markdown intro (VObj []);
    code "import os";
    code "os.getcwd()";
    markdown "### Make directory" (VObj []);
    code ("os.path.isdir(" +:+ dq +:+ "dir" +:+ dq +:+ ")");
    code ("os.mkdir(" +:+ dq +:+ "dir" +:+ dq +:+ ")");
    markdown "### List directory content" (VObj []);
    code "os.listdir(os.getcwd())";
    markdown "### Remove" (VObj []);
    code "os.rmdir('dir')";
    code "os.listdir(os.getcwd())";
    markdown "### Reading/writing file" (VObj [("tags", VArr [])]);
    code ("with open('test.txt', 'w') as fobj:" +:+ nl +:+
          "    fobj.write('Hello! I write this from the kernel worker')");
    code ("with open('test.txt', 'r') as fobj:" +:+ nl +:+
          "    print(fobj.read())");
    code ("from PIL import Image" +:+ nl +:+ nl +:+
          "img = Image.new('RGB', (60, 30), color=(73, 109, 137))" +:+ nl +:+
          "img.save('pil_color.png')");
    code ("from IPython.display import Image" +:+ nl +:+ nl +:+
          "with open('pil_color.png', 'rb') as fobj:" +:+ nl +:+
          "    data = fobj.read()" +:+ nl +:+ nl +:+
          "print(data[:20])" +:+ nl +:+
          "Image(data=data, format='png')");
    markdown "### Replace" (VObj []);
    code "os.path.exists('test.txt')";
    code ("os.rename(" +:+ dq +:+ "test.txt" +:+ dq +:+ ", " +:+
          dq +:+ "test_rename.txt" +:+ dq +:+ ")");
    code "os.path.exists('test.txt')";
    code "os.listdir(os.getcwd())" ].

Definition root : value :=
  VObj [("metadata",
         VObj [("language_info",
                VObj [("codemirror_mode",
                       VObj [("name", VStr "python"); ("version", VNum 3)]);
                      ("file_extension", VStr ".py");
                      ("mimetype", VStr "text/x-python");
                      ("name", VStr "python");
                      ("nbconvert_exporter", VStr "python");
                      ("pygments_lexer", VStr "ipython3");
                      ("version", VStr "3.8")]);
               ("kernelspec",
                VObj [("name", VStr "python");
                      ("display_name", VStr "Pyolite");
                      ("language", VStr "python")])]);
        ("nbformat_minor", VNum 4);
        ("nbformat", VNum 4);
        ("cells", VArr cells)].

Definition doc : document := {| doc_format := Json; doc_root := root |}.

End VirtualDrive.

Module PilDemo.

Definition markdown (src : list string) : value :=
  VObj [("cell_type", VStr "markdown");
        ("metadata", VObj []);
        ("source", VArr (VStr <$> src))].

Definition code (count : Z) (outs : list value) (src : list string) : value :=
  VObj [("cell_type", VStr "code");
        ("execution_count", VNum count);
        ("metadata", VObj []);
        ("outputs", VArr outs);
        ("source", VArr (VStr <$> src))].

Definition png : string :=
  "iVBORw0KGgoAAAANSUhEUgAAAGQAAABkCAIAAAD/gAIDAAAANElEQVR4nO3BAQ0AAADCoPdPbQ43oAAAAAAAAAAAAAAAAAAAAAAAAAAAAAAAAAAAAAAAfgx1lAABqFDyOQAAAABJRU5ErkJggg==" +:+ nl.

Definition execute_result (count : Z) (repr : string) : value :=
  VObj [("data", VObj [("image/png", VStr png);
                       ("text/plain", VArr [VStr repr])]);
        ("execution_count", VNum count);
        ("metadata", VObj []);
        ("output_type", VStr "execute_result")].

Definition cells : list value :=
  [ markdown
      [ "# `PIL.Image` Demo" +:+ nl;
        nl;
        "PIL is the **Python Image Library**, and has excellent [documentation](https://pillow.readthedocs.io/en/latest/index.html)." +:+ nl;
        nl;
        "This is a simple demonstration of rendering PIL images in a `jupyterlite` notebook. Most of PIL should work as designed." ];
    markdown
      [ "## Import the Library" +:+ nl;
        nl;
        "`jupyterlite` comes with PIL, so you only need import what you need from it." ];
    code 1 [] [ "from PIL import Image" ];
    markdown [ "## Create a new Image" ];
    code 2
      [ execute_result 2 "<PIL.Image.Image image mode=RGB size=100x100 at 0x7F2A940AAD90>" ]
      [ "image = Image.new(" +:+ dq +:+ "RGB" +:+ dq +:+ ", (100, 100))" +:+ nl;
        "image" ];
    markdown [ "## Saving an Image" ];
    code 3 [] [ "image.save(" +:+ dq +:+ "box.png" +:+ dq +:+ ")" ];
    markdown
      [ "## Open an existing Image" +:+ nl;
        nl;
        "Currently only works with images written by `jupyterlite`." ];
    code 4
      [ execute_result 4 "<PIL.PngImagePlugin.PngImageFile image mode=RGB size=100x100 at 0x7F2A943FF610>" ]
      [ "box_image = Image.open(" +:+ dq +:+ "box.png" +:+ dq +:+ ")" +:+ nl;
        "box_image" ] ].

Definition root : value :=
  VObj [("cells", VArr cells);
        ("metadata",
         VObj [("kernelspec",
                VObj [("display_name", VStr "Python 3");
                      ("language", VStr "python");
                      ("name", VStr "python3")]);
               ("language_info",
                VObj [("codemirror_mode",
                       VObj [("name", VStr "ipython"); ("version", VNum 3)]);
                      ("file_extension", VStr ".py");
                      ("mimetype", VStr "text/x-python");
                      ("name", VStr "python");
                      ("nbconvert_exporter", VStr "python");
                      ("pygments_lexer", VStr "ipython3");
                      ("version", VStr "3.8.5")]);
               ("widgets",
                VObj [("application/vnd.jupyter.widget-state+json",
                       VObj [("state", VObj []);
                             ("version_major", VNum 2);
                             ("version_minor", VNum 0)])])]);
        ("nbformat", VNum 4);
        ("nbformat_minor", VNum 4)].

Definition doc : document := {| doc_format := Json; doc_root := root |}.

End PilDemo.

Module Workspace.

Definition setup_init : string :=
  block [ "pushd /workspace";
          "wget -qO- https://micro.mamba.pm/api/micromamba/linux-64/latest | tar -xvj bin/micromamba";
          "popd";
          "# bootstrap activation commands for other tasks to reuse";
          "cat <<EOT > /workspace/bin/activate-env.sh";
          "export MAMBA_ROOT_PREFIX=/workspace/.micromamba";
          "export MAMBA_EXE=/workspace/bin/micromamba";
          "$(/workspace/bin/micromamba shell hook --shell=bash)";
          "micromamba activate";
          "EOT";
          "source /workspace/bin/activate-env.sh";
          "micromamba install -n base -y -f .binder/environment.yml";
          "doit build" ].

Definition setup_command : string :=
  block [ "gp sync-done setup";
          "source /workspace/bin/activate-env.sh";
          "doit watch" ].

Definition watch_command : string :=
  block [ "gp sync-await setup";
          "source /workspace/bin/activate-env.sh";
          "doit serve" ].

Definition docs_command : string :=
  block [ "gp sync-await setup";
          "source /workspace/bin/activate-env.sh";
          "doit watch:docs" ].

Definition root : value :=
  VObj [("github",
         VObj [("prebuilds",
                VObj [("master", VBool true);
                      ("pullRequests", VBool true);
                      ("pullRequestsFromForks", VBool true);
                      ("addCheck", VBool false);
                      ("addComment", VBool false);
                      ("addBadge", VBool false);
                      ("addLabel", VBool false)])]);
        ("tasks",
         VArr [ VObj [("name", VStr "setup");
                      ("init", VStr setup_init);
                      ("command", VStr setup_command)];
                VObj [("name", VStr "watch");
                      ("command", VStr watch_command)];
                VObj [("name", VStr "docs");
                      ("command", VStr docs_command)] ]);
        ("ports",
         VArr [ VObj [("port", VNum 5000)];
                VObj [("port", VNum 8000)];
                VObj [("port", VNum 8888)] ])].

Definition doc : document := {| doc_format := Yaml; doc_root := root |}.

End Workspace.

(** The source file is the concatenation of these three documents. *)
Definition documents : list document :=
  [VirtualDrive.doc; PilDemo.doc; Workspace.doc].

(** ** Accessors on document trees *)

Fixpoint assoc (k : string) (fs : list (string * value)) : option value :=
  match fs with
  | [] => None
  | (k', v) :: fs' => if String.eqb k k' then Some v else assoc k fs'
  end.

Definition field (k : string) (v : value) : option value :=
  match v with
  | VObj fs => assoc k fs
  | _ => None
  end.

Definition items (v : value) : list value :=
  match v with
  | VArr l => l
  | _ => []
  end.

Definition as_string (v : value) : string :=
  match v with
  | VStr s => s
  | _ => ""
  end.

(** nbformat's multi-line string: one string, or a list of strings that are
    concatenated. *)
Definition multiline (v : value) : string :=
  match v with
  | VStr s => s
  | VArr l => foldr (λ x acc, as_string x +:+ acc) "" l
  | _ => ""
  end.

Definition str_field (k : string) (v : value) : string :=
  from_option as_string "" (field k v).

(** *** Notebooks *)

Definition is_notebook4 (d : document) : bool :=
  match doc_format d, field "nbformat" (doc_root d), field "cells" (doc_root d) with
  | Json, Some (VNum 4), Some (VArr _) => true
  | _, _, _ => false
  end.

Definition nb_cells (nb : value) : list value :=
  from_option items [] (field "cells" nb).

Definition is_code (c : value) : bool :=
  String.eqb (str_field "cell_type" c) "code".

Definition code_cells (nb : value) : list value :=
  List.filter is_code (nb_cells nb).

Definition cell_source (c : value) : string :=
  from_option multiline "" (field "source" c).

Definition cell_outputs (c : value) : option (list value) :=
  match field "outputs" c with
  | Some (VArr l) => Some l
  | _ => None
  end.

(** [Some None] is an explicit null, [Some (Some n)] a stored counter. *)
Definition cell_execution_count (c : value) : option (option Z) :=
  match field "execution_count" c with
  | Some VNull => Some None
  | Some (VNum n) => Some (Some n)
  | _ => None
  end.

Definition cell_meta (k : string) (c : value) : option value :=
  field "metadata" c ≫= field k.

Definition notebooks : list value :=
  doc_root <$> List.filter is_notebook4 documents.

(** *** Workspace descriptor *)

Definition is_descriptor (d : document) : bool :=
  match doc_format d, field "tasks" (doc_root d) with
  | Yaml, Some (VArr _) => true
  | _, _ => false
  end.

Definition ws_tasks (ws : value) : list value :=
  from_option items [] (field "tasks" ws).

Definition task_name (t : value) : option string :=
  match field "name" t with
  | Some (VStr n) => Some n
  | _ => None
  end.

Definition named_tasks (ws : value) : list value :=
  List.filter (λ t, bool_decide (is_Some (task_name t))) (ws_tasks ws).

Definition task_script (k : string) (t : value) : option string :=
  match field k t with
  | Some (VStr s) => Some s
  | _ => None
  end.

(** All [init] and [command] scripts of a task. *)
Definition task_scripts (t : value) : list string :=
  option_list (task_script "init" t) ++ option_list (task_script "command" t).

Definition ws_prebuild (k : string) (ws : value) : option value :=
  prebuilds ← field "github" ws ≫= field "prebuilds"; field k prebuilds.

Definition ws_ports (ws : value) : option (list value) :=
  match field "ports" ws with
  | Some (VArr l) => Some l
  | _ => None
  end.

Definition port_number (p : value) : option Z :=
  match field "port" p with
  | Some (VNum n) => Some n
  | _ => None
  end.

Definition ws_port_numbers (ws : value) : option (list Z) :=
  ws_ports ws ≫= mapM port_number.

(** ** Lexing the Python of the code cells

    The cells are straight-line Python; what the properties need from them is
    which functions are called, on what, and with which literal arguments.  A
    token is a dotted name (keywords and numbers included), a string literal,
    or a single punctuation character. *)

Inductive token :=
| TName (s : string)
| TStr (s : string)
| TSym (c : ascii).

Definition is_name_char (c : ascii) : bool :=
  let n := N_of_ascii c in
  ((48 <=? n) && (n <=? 57) || (65 <=? n) && (n <=? 90)
   || (97 <=? n) && (n <=? 122) || (n =? 95) || (n =? 46))%N.

Definition is_quote (c : ascii) : bool :=
  Ascii.eqb c sq_char || Ascii.eqb c dq_char.

(** The accumulators hold the characters read so far, last one first. *)
Inductive lex_state :=
| Idle
| InName (acc : string)
| InStr (quote : ascii) (acc : string).

Definition lex_start (c : ascii) : lex_state * list token :=
  if is_quote c then (InStr c "", [])
  else if is_name_char c then (InName (String c ""), [])
  else if Ascii.is_space c then (Idle, [])
  else (Idle, [TSym c]).

Definition lex_flush (st : lex_state) : list token :=
  match st with
  | Idle => []
  | InName acc => [TName (String.rev acc)]
  | InStr _ acc => [TStr (String.rev acc)]
  end.

Fixpoint lex_go (st : lex_state) (s : string) : list token :=
  match s with
  | EmptyString => lex_flush st
  | String c s' =>
      match st with
      | Idle => let '(st', out) := lex_start c in out ++ lex_go st' s'
      | InName acc =>
          if is_name_char c then lex_go (InName (String c acc)) s'
          else let '(st', out) := lex_start c in
               TName (String.rev acc) :: out ++ lex_go st' s'
      | InStr q acc =>
          if Ascii.eqb c q then TStr (String.rev acc) :: lex_go Idle s'
          else lex_go (InStr q (String c acc)) s'
      end
  end.

Definition lex : string → list token := lex_go Idle.

(** The literal arguments that open an argument list: the leading string
    literals, comma separated. *)
Fixpoint str_args (ts : list token) : list string :=
  match ts with
  | TStr a :: TSym c :: ts' =>
      if Ascii.eqb c "," then a :: str_args ts' else [a]
  | _ => []
  end.

(** ** Resolving calls against the kernel's name bindings

    A notebook's cells run in one kernel, so a name imported or assigned in
    one cell is visible in the later ones. *)

Inductive binding :=
| BModule (m : string)          (* import m *)
| BMember (m n : string)        (* from m import n *)
| BPilImage                     (* x = Image.new(...) / Image.open(...) *)
| BFile.                        (* with open(...) as x *)

Inductive target :=
| Os (fn : string)              (* function of the os module *)
| Open                          (* the builtin open *)
| FileObj (meth : string)       (* method of an open file *)
| Pil (attr : string)           (* attribute of PIL's Image, called *)
| PilObj (meth : string)        (* method of a PIL image *)
| Other (name : string).

Record call := Call { call_target : target; call_args : list string }.

Global Instance binding_eq_dec : EqDecision binding.
Proof. solve_decision. Defined.
Global Instance target_eq_dec : EqDecision target.
Proof. solve_decision. Defined.
Global Instance call_eq_dec : EqDecision call.
Proof. solve_decision. Defined.

(** An open parenthesis that has not been closed yet: a plain group, or the
    argument list of a call, with the name its result is assigned to. *)
Inductive frame :=
| FGroup
| FCall (c : call) (assign : option string).

Record kernel := Kernel {
  bindings : gmap string binding;
  last_call : option target;      (* the call that returned last *)
  pending : list frame            (* innermost open parenthesis first *)
}.

Definition fresh_kernel : kernel := Kernel ∅ None [].

Definition bind (x : string) (b : binding) (k : kernel) : kernel :=
  Kernel (<[x := b]> (bindings k)) (last_call k) (pending k).

Definition unbind (x : string) (k : kernel) : kernel :=
  Kernel (delete x (bindings k)) (last_call k) (pending k).

Definition push (f : frame) (k : kernel) : kernel :=
  Kernel (bindings k) (last_call k) (f :: pending k).

(** [split_dot "os.path.isdir" = ("os", "path.isdir")]. *)
Fixpoint split_dot (s : string) : string * string :=
  match s with
  | EmptyString => ("", "")
  | String c s' =>
      if Ascii.eqb c "." then ("", s')
      else let '(h, r) := split_dot s' in (String c h, r)
  end.

Definition resolve (env : gmap string binding) (f : string) : target :=
  let '(h, r) := split_dot f in
  match env !! h with
  | Some (BModule m) => if String.eqb m "os" then Os r else Other f
  | Some (BMember m n) =>
      if String.eqb m "PIL" && String.eqb n "Image" then Pil r else Other f
  | Some BPilImage => PilObj r
  | Some BFile => FileObj r
  | None => if String.eqb f "open" then Open else Other f
  end.

(** What a name is bound to when it is assigned the result of a call. *)
Definition assign_result (x : string) (t : target) (k : kernel) : kernel :=
  match t with
  | Pil _ => bind x BPilImage k
  | _ => unbind x k
  end.

(** A closing parenthesis: the innermost open call returns.  Python evaluates
    the arguments of a call before the call itself, so a call is recorded when
    its argument list closes: in [os.listdir(os.getcwd())], [os.getcwd] comes
    first. *)
Definition close (k : kernel) : kernel * list call :=
  match pending k with
  | [] => (k, [])
  | FGroup :: fs => (Kernel (bindings k) (last_call k) fs, [])
  | FCall c x :: fs =>
      let k' := Kernel (bindings k) (Some (call_target c)) fs in
      (match x with
       | Some x => assign_result x (call_target c) k'
       | None => k'
       end, [c])
  end.

(** One look at the tokens from the current position: the new kernel, the
    calls that return there, and how many further tokens the construct
    covers. *)
Definition step (k : kernel) (ts : list token) : kernel * list call * nat :=
  match ts with
  | TName a :: TName b :: rest =>
      if String.eqb a "import" then (bind b (BModule b) k, [], 1%nat)
      else if String.eqb a "from" then
        match rest with
        | TName i :: TName n :: _ =>
            if String.eqb i "import" then (bind n (BMember b n) k, [], 3%nat)
            else (k, [], 0%nat)
        | _ => (k, [], 0%nat)
        end
      else if String.eqb a "as" then
        (match last_call k with
         | Some Open => bind b BFile k
         | _ => unbind b k
         end, [], 1%nat)
      else (k, [], 0%nat)
  | TName x :: TSym c :: rest =>
      if Ascii.eqb c "(" then
        (push (FCall (Call (resolve (bindings k) x) (str_args rest)) None) k,
         [], 1%nat)
      else if Ascii.eqb c "=" then
        match rest with
        | TName f :: TSym p :: rest' =>
            if Ascii.eqb p "(" then
              (push (FCall (Call (resolve (bindings k) f) (str_args rest'))
                           (Some x)) k,
               [], 3%nat)
            else (k, [], 0%nat)
        | _ => (k, [], 0%nat)
        end
      else (k, [], 0%nat)
  | TSym c :: _ =>
      if Ascii.eqb c "(" then (push FGroup k, [], 0%nat)
      else if Ascii.eqb c ")" then let '(k', out) := close k in (k', out, 0%nat)
      else (k, [], 0%nat)
  | _ => (k, [], 0%nat)
  end.

Fixpoint walk (k : kernel) (skip : nat) (ts : list token) : kernel * list call :=
  match ts with
  | [] => (k, [])
  | _ :: ts' =>
      match skip with
      | S n => walk k n ts'
      | O =>
          let '(k', out, n) := step k ts in
          let '(k'', outs) := walk k' n ts' in
          (k'', out ++ outs)
      end
  end.

(** A cell starts with no parenthesis open. *)
Definition run_cell (k : kernel) (c : value) : kernel * list call :=
  walk (Kernel (bindings k) (last_call k) []) 0 (lex (cell_source c)).

Fixpoint run_cells (k : kernel) (cs : list value) : list (list call) :=
  match cs with
  | [] => []
  | c :: cs' => let '(k', out) := run_cell k c in out :: run_cells k' cs'
  end.

(** The calls of a notebook, cell by cell, and flattened. *)
Definition cell_calls (nb : value) : list (list call) :=
  run_cells fresh_kernel (code_cells nb).

Definition notebook_calls (nb : value) : list call :=
  concat (cell_calls nb).

(** ** Words and lines *)

Definition nonempty_word (cur : string) : list string :=
  match cur with
  | EmptyString => []
  | _ => [String.rev cur]
  end.

(** The maximal runs of characters that satisfy [p], left to right. *)
Fixpoint runs_go (p : ascii → bool) (cur : string) (s : string) : list string :=
  match s with
  | EmptyString => nonempty_word cur
  | String c s' =>
      if p c then runs_go p (String c cur) s'
      else nonempty_word cur ++ runs_go p "" s'
  end.

Definition runs (p : ascii → bool) : string → list string := runs_go p "".

Definition is_ident_char (c : ascii) : bool :=
  let n := N_of_ascii c in
  ((48 <=? n) && (n <=? 57) || (65 <=? n) && (n <=? 90)
   || (97 <=? n) && (n <=? 122) || (n =? 95))%N.

Definition lower_char (c : ascii) : ascii :=
  let n := N_of_ascii c in
  if ((65 <=? n) && (n <=? 90))%N then ascii_of_N (n + 32) else c.

Fixpoint lower (s : string) : string :=
  match s with
  | EmptyString => ""
  | String c s' => String (lower_char c) (lower s')
  end.

(** Identifier-like words of a text, lower-cased. *)
Definition idents (s : string) : list string :=
  lower <$> runs is_ident_char s.

Definition lines (s : string) : list string :=
  runs (λ c, negb (Ascii.eqb c nl_char)) s.

Definition mentions (needle text : string) : bool :=
  bool_decide (is_Some (String.index 0 needle text)).

(** ** Shell scripts of the descriptor

    A script is read line by line.  A comment line is dropped and a pipeline
    is split into its simple commands; each simple command is its word list.
    The body of a here-document ([<<TAG] up to the line [TAG]) is data for
    its command, but when TAG is not quoted the shell expands the body first,
    and that runs the command substitutions [$(...)] written in it; they are
    listed before the command they feed. *)

(** The tag of [<<TAG], and whether the body is expanded (TAG not quoted). *)
Definition heredoc_of_word (w : string) : option (string * bool) :=
  match w with
  | String a (String b tag) =>
      if Ascii.eqb a "<" && Ascii.eqb b "<" then
        match tag with
        | String q tag' =>
            if is_quote q then
              Some (String.rev (match String.rev tag' with
                                | String _ t => t
                                | EmptyString => ""
                                end), false)
            else if Ascii.eqb q "\" then Some (tag', false)
            else Some (tag, true)
        | EmptyString => None
        end
      else None
  | _ => None
  end.

Definition heredoc_tag (ws : list string) : option (string * bool) :=
  list_find (λ w, is_Some (heredoc_of_word w)) ws ≫= λ '(_, w), heredoc_of_word w.

(** The command substitutions [$(...)] of a line, as word lists. *)
Fixpoint substitutions_go (inside : option string) (s : string)
    : list (list string) :=
  match s with
  | EmptyString => []
  | String c s' =>
      match inside with
      | Some acc =>
          if Ascii.eqb c ")"
          then String.words (String.rev acc) :: substitutions_go None s'
          else substitutions_go (Some (String c acc)) s'
      | None =>
          match s' with
          | String d s'' =>
              if Ascii.eqb c "$" && Ascii.eqb d "("
              then substitutions_go (Some "") s''
              else substitutions_go None s'
          | EmptyString => []
          end
      end
  end.

Definition substitutions : string → list (list string) := substitutions_go None.

Fixpoint split_pipe (cur : list string) (ws : list string) : list (list string) :=
  match ws with
  | [] => [rev cur]
  | w :: ws' =>
      if String.eqb w "|" then rev cur :: split_pipe [] ws'
      else split_pipe (w :: cur) ws'
  end.

Definition is_comment (w : string) : bool :=
  match w with
  | String c _ => Ascii.eqb c "#"
  | EmptyString => false
  end.

(** Reading a script: between commands, or inside the here-document of the
    commands [held], with the substitutions found in its body so far. *)
Inductive reading :=
| Plain
| InDoc (tag : string) (expand : bool)
        (held : list (list string)) (subs : list (list string)).

Fixpoint commands_go (st : reading) (ls : list string) : list (list string) :=
  match ls with
  | [] =>
      match st with
      | Plain => []
      | InDoc _ _ held subs => subs ++ held
      end
  | l :: ls' =>
      match st with
      | InDoc tag expand held subs =>
          if String.eqb l tag then subs ++ held ++ commands_go Plain ls'
          else commands_go
                 (InDoc tag expand held
                    (subs ++ if expand then substitutions l else []))
                 ls'
      | Plain =>
          match String.words l with
          | [] => commands_go Plain ls'
          | w :: ws =>
              if is_comment w then commands_go Plain ls'
              else
                let cmds := substitutions l ++ split_pipe [] (w :: ws) in
                match heredoc_tag (w :: ws) with
                | Some (tag, expand) => commands_go (InDoc tag expand cmds []) ls'
                | None => cmds ++ commands_go Plain ls'
                end
          end
      end
  end.

Definition script_commands (script : string) : list (list string) :=
  commands_go Plain (lines script).

(** The programs a script invokes: the first word of each simple command
    and of each command substitution. *)
Definition invoked (script : string) : list string :=
  omap head (script_commands script).

(** ** Coordination primitives

    In a task script: the workspace platform's [gp sync-done NAME] (signal)
    and [gp sync-await NAME] (block until signalled).  In Python text: the
    words of the language's and standard library's concurrency vocabulary. *)

Inductive primitive :=
| SyncDone (name : string)
| SyncAwait (name : string)
| PyWord (w : string).

Global Instance primitive_eq_dec : EqDecision primitive.
Proof. solve_decision. Defined.

Definition sync_of (argv : list string) : option primitive :=
  match argv with
  | [gp; verb; name] =>
      if String.eqb gp "gp" && String.eqb verb "sync-done" then Some (SyncDone name)
      else if String.eqb gp "gp" && String.eqb verb "sync-await" then Some (SyncAwait name)
      else None
  | _ => None
  end.

Definition py_sync_words : list string :=
  ["async"; "await"; "asyncio"; "threading"; "thread"; "multiprocessing";
   "concurrent"; "subprocess"; "queue"; "sched"; "lock"; "rlock";
   "semaphore"; "mutex"; "barrier"].

Definition script_syncs (script : string) : list primitive :=
  omap sync_of (script_commands script).

Definition py_syncs (text : string) : list primitive :=
  PyWord <$> List.filter (λ w, bool_decide (w ∈ py_sync_words)) (idents text).

(** ** A model of the drive

    The file API the virtual-drive notebook calls belongs to the external
    runtime.  The cells only use names relative to the working directory, so
    the model is that one directory: a finite map from entry names to entry
    kinds.  File contents are not modelled.  The operations follow Python's
    [os] module, exceptions included. *)

Inductive node := Dir | File.

Global Instance node_eq_dec : EqDecision node.
Proof. solve_decision. Defined.

Inductive os_error :=
| FileExistsError
| FileNotFoundError
| NotADirectoryError
| IsADirectoryError
| Unsupported.

Inductive outcome (A : Type) :=
| Ok (a : A)
| Raise (e : os_error).
Arguments Ok {A} a.
Arguments Raise {A} e.

Inductive obs :=
| ONone                         (* the call returns nothing of interest *)
| OBool (b : bool)
| OCwd
| OListing (names : gset string).

Definition starts_with (c : ascii) (s : string) : bool :=
  match s with
  | String c' _ => Ascii.eqb c c'
  | EmptyString => false
  end.

Definition fs_mkdir (p : string) (s : gmap string node) : outcome (gmap string node) :=
  match s !! p with
  | Some _ => Raise FileExistsError
  | None => Ok (<[p := Dir]> s)
  end.

Definition fs_rmdir (p : string) (s : gmap string node) : outcome (gmap string node) :=
  match s !! p with
  | Some Dir => Ok (delete p s)
  | Some File => Raise NotADirectoryError
  | None => Raise FileNotFoundError
  end.

Definition fs_rename (a b : string) (s : gmap string node) : outcome (gmap string node) :=
  match s !! a with
  | None => Raise FileNotFoundError
  | Some n =>
      match n, s !! b with
      | File, Some Dir => Raise IsADirectoryError
      | Dir, Some File => Raise NotADirectoryError
      | _, _ => Ok (<[b := n]> (delete a s))
      end
  end.

Definition fs_create (p : string) (s : gmap string node) : outcome (gmap string node) :=
  match s !! p with
  | Some Dir => Raise IsADirectoryError
  | _ => Ok (<[p := File]> s)
  end.

Definition fs_read (p : string) (s : gmap string node) : outcome (gmap string node) :=
  match s !! p with
  | Some File => Ok s
  | Some Dir => Raise IsADirectoryError
  | None => Raise FileNotFoundError
  end.

Definition fs_exists (p : string) (s : gmap string node) : bool :=
  bool_decide (is_Some (s !! p)).

Definition fs_isdir (p : string) (s : gmap string node) : bool :=
  bool_decide (s !! p = Some Dir).

Definition fs_listdir (s : gmap string node) : gset string := dom s.

Definition quiet (r : outcome (gmap string node)) : outcome (gmap string node * obs) :=
  match r with
  | Ok s => Ok (s, ONone)
  | Raise e => Raise e
  end.

(** The effect of one resolved call.  [os.listdir] is only ever applied to
    [os.getcwd()], which is not a literal, so it arrives without literal
    arguments and lists the working directory. *)
Definition exec (c : call) (s : gmap string node) : outcome (gmap string node * obs) :=
  match call_target c, call_args c with
  | Os fn, args =>
      if String.eqb fn "getcwd" then Ok (s, OCwd)
      else if String.eqb fn "listdir" then Ok (s, OListing (fs_listdir s))
      else match args with
           | [p] =>
               if String.eqb fn "mkdir" then quiet (fs_mkdir p s)
               else if String.eqb fn "rmdir" then quiet (fs_rmdir p s)
               else if String.eqb fn "path.exists" then Ok (s, OBool (fs_exists p s))
               else if String.eqb fn "path.isdir" then Ok (s, OBool (fs_isdir p s))
               else Raise Unsupported
           | [a; b] =>
               if String.eqb fn "rename" then quiet (fs_rename a b s)
               else Raise Unsupported
           | _ => Raise Unsupported
           end
  | Open, [p; mode] =>
      if starts_with "w" mode then quiet (fs_create p s)
      else if starts_with "r" mode then quiet (fs_read p s)
      else Raise Unsupported
  | Open, _ => Raise Unsupported
  | Pil attr, args =>
      match args with
      | [p] => if String.eqb attr "open" then quiet (fs_read p s) else Ok (s, ONone)
      | _ => Ok (s, ONone)
      end
  | PilObj meth, [p] =>
      if String.eqb meth "save" then quiet (fs_create p s) else Ok (s, ONone)
  | PilObj _, _ => Ok (s, ONone)
  | FileObj _, _ => Ok (s, ONone)
  | Other _, _ => Ok (s, ONone)
  end.

(** Run the calls in order; the first exception ends the run. *)
Fixpoint run (cs : list call) (s : gmap string node) : outcome (gmap string node * list obs) :=
  match cs with
  | [] => Ok (s, [])
  | c :: cs' =>
      match exec c s with
      | Raise e => Raise e
      | Ok (s', o) =>
          match run cs' s' with
          | Raise e => Raise e
          | Ok (s'', os) => Ok (s'', o :: os)
          end
      end
  end.

(** ** Derived views used in the statements *)

Definition unexecuted (c : value) : Prop :=
  cell_outputs c = Some [] ∧ cell_execution_count c = Some None.

Definition stored_outputs (c : value) : nat :=
  from_option length 0%nat (cell_outputs c).

Definition has_script (k : string) (t : value) : Prop :=
  is_Some (task_script k t).

Definition all_cell_sources : list string :=
  cell_source <$> concat (nb_cells <$> notebooks).

Definition all_task_scripts : list string :=
  concat (task_scripts <$> ws_tasks Workspace.root).

Definition task_names : list string :=
  omap task_name (ws_tasks Workspace.root).

(** *** File API calls of a notebook *)

Definition is_file_api (t : target) : bool :=
  match t with
  | Os _ | Open | FileObj _ => true
  | _ => false
  end.

Definition file_api_calls (nb : value) : list call :=
  List.filter (λ c, is_file_api (call_target c)) (notebook_calls nb).

Definition os_functions (nb : value) : list string :=
  omap (λ c, match call_target c with Os fn => Some fn | _ => None end)
       (notebook_calls nb).

Definition open_modes (nb : value) : list string :=
  omap (λ c, match call_target c, call_args c with
             | Open, [_; mode] => Some mode
             | _, _ => None
             end)
       (notebook_calls nb).

(** The operation kinds of the file API: directory creation, listing and
    removal, file read and write, existence check, rename. *)
Inductive fs_kind :=
| DirCreate | DirList | DirRemove | FileRead | FileWrite | ExistsCheck | Rename.

Definition fs_kind_of (c : call) : option fs_kind :=
  match call_target c with
  | Os fn =>
      if String.eqb fn "mkdir" then Some DirCreate
      else if String.eqb fn "listdir" then Some DirList
      else if String.eqb fn "rmdir" then Some DirRemove
      else if String.eqb fn "path.exists" || String.eqb fn "path.isdir"
      then Some ExistsCheck
      else if String.eqb fn "rename" then Some Rename
      else None
  | Open =>
      match call_args c with
      | [_; mode] =>
          if starts_with "r" mode then Some FileRead
          else if starts_with "w" mode then Some FileWrite
          else None
      | _ => None
      end
  | FileObj meth =>
      if String.eqb meth "read" then Some FileRead
      else if String.eqb meth "write" then Some FileWrite
      else None
  | _ => None
  end.

Definition listed_os_functions : list string :=
  ["mkdir"; "listdir"; "rmdir"; "path.exists"; "path.isdir"; "rename"].

Definition listed_open_modes : list string := ["r"; "w"].

(** *** Image-library calls of a notebook *)

Definition is_pil (t : target) : bool :=
  match t with
  | Pil _ | PilObj _ => true
  | _ => false
  end.

Definition pil_usage (nb : value) : list target :=
  List.filter is_pil (call_target <$> notebook_calls nb).

Definition listed_pil_calls : list target :=
  [Pil "new"; Pil "open"; PilObj "save"].

(** *** Cross references between the notebooks and the descriptor *)

(** Words by which a text would refer to the descriptor: the platform's name,
    its command-line tool, and the names of the descriptor's tasks. *)
Definition descriptor_words : list string :=
  ["gitpod"; "gp"] ++ task_names.

(** Markers by which a script would refer to a notebook file. *)
Definition notebook_markers : list string := [".ipynb"; "virtual_drive"].

(** *** Document kinds *)

Definition fs_or_image (t : target) : bool :=
  match t with
  | Other _ => false
  | _ => true
  end.

(** [print] and IPython's display class [Image] (bound by
    [from IPython.display import Image], so not resolved to PIL). *)
Definition is_display (t : target) : bool :=
  bool_decide (t = Other "print" ∨ t = Other "Image").

Definition doc_invoked (d : document) : list string :=
  concat (invoked <$> concat (task_scripts <$> ws_tasks (doc_root d))).

Definition fs_and_image_notebook (d : document) : Prop :=
  is_notebook4 d
  ∧ Forall (λ c, fs_or_image (call_target c)) (notebook_calls (doc_root d)).

Definition fs_image_display_notebook (d : document) : Prop :=
  is_notebook4 d
  ∧ Forall (λ c, fs_or_image (call_target c) || is_display (call_target c))
      (notebook_calls (doc_root d)).

Definition env_and_build_descriptor (d : document) : Prop :=
  is_descriptor d ∧ "micromamba" ∈ doc_invoked d ∧ "doit" ∈ doc_invoked d.

(** *** The run of the virtual-drive notebook *)


(** What the cells of the virtual-drive notebook observe, given the listing
    before the first cell and the listing after the last one. *)
Definition virtual_drive_trace (before after : gset string) : list obs :=
  [OCwd; OBool false; ONone; OCwd; OListing ({["dir"]} ∪ before);
   ONone; OCwd; OListing before]
  ++ replicate 11 ONone
  ++ [OBool true; ONone; OBool false; OCwd; OListing after].



(** The run raises no exception. *)
Definition completes (cs : list call) (s : gmap string node) : Prop :=
  ∃ (s' : gmap string node) (tr : list obs), run cs s = Ok (s', tr).

(** An outcome without its observations. *)
Definition outcome_drive (r : outcome (gmap string node * list obs))
    : outcome (gmap string node) :=
  match r with
  | Ok (s, _) => Ok s
  | Raise e => Raise e
  end.


(** The [output_type] of each output a cell stores. *)
Definition stored_output_types (c : value) : list string :=
  str_field "output_type" <$> default [] (cell_outputs c).

(** ** Closed forms for the runs on the model drive *)

(** The drive the virtual-drive notebook leaves behind. *)
Definition virtual_drive_final (s : gmap string node) : gmap string node :=
  <["test_rename.txt" := File]>
    (delete "test.txt" (<["pil_color.png" := File]> (<["test.txt" := File]> s))).

(** One of the names the notebook writes to is taken by a directory. *)
Definition blocked_by_directory (s : gmap string node) : Prop :=
  s !! "test.txt" = Some Dir ∨ s !! "pil_color.png" = Some Dir
  ∨ s !! "test_rename.txt" = Some Dir.

Definition virtual_drive_outcome (s : gmap string node)
    : outcome (gmap string node * list obs) :=
  if decide (is_Some (s !! "dir")) then Raise FileExistsError
  else if decide (blocked_by_directory s) then Raise IsADirectoryError
  else Ok (virtual_drive_final s,
           virtual_drive_trace (fs_listdir s) (fs_listdir (virtual_drive_final s))).

Definition pil_demo_outcome (s : gmap string node)
    : outcome (gmap string node * list obs) :=
  if decide (s !! "box.png" = Some Dir) then Raise IsADirectoryError
  else Ok (<["box.png" := File]> s, [ONone; ONone; ONone]).

(** ** Stored outputs

    The PIL demo notebook stores, for the cells that end in an expression, the
    value the kernel displayed: an [execute_result] with a [text/plain] and an
    [image/png] rendering, the latter as base64 text. *)

Definition output_count (o : value) : option Z :=
  match field "execution_count" o with
  | Some (VNum n) => Some n
  | _ => None
  end.

Definition output_data (mime : string) (o : value) : option string :=
  multiline <$> (field "data" o ≫= field mime).

Definition all_outputs (nb : value) : list value :=
  concat (omap cell_outputs (code_cells nb)).

(** *** Base64 *)

Definition b64_value (c : ascii) : option N :=
  let n := N_of_ascii c in
  if ((65 <=? n) && (n <=? 90))%N then Some (n - 65)%N
  else if ((97 <=? n) && (n <=? 122))%N then Some (n - 71)%N
  else if ((48 <=? n) && (n <=? 57))%N then Some (n + 4)%N
  else if (n =? 43)%N then Some 62%N
  else if (n =? 47)%N then Some 63%N
  else None.

Definition is_pad (c : ascii) : bool := (N_of_ascii c =? 61)%N.

Definition byte_of (n : N) (shift : N) : N := N.land (N.shiftr n shift) 255.

(** Four characters give three bytes; padding shortens the last group. *)
Fixpoint b64_decode_chars (cs : list ascii) : option (list N) :=
  match cs with
  | [] => Some []
  | a :: b :: c :: d :: rest =>
      va ← b64_value a; vb ← b64_value b;
      let hi := N.lor (N.shiftl va 18) (N.shiftl vb 12) in
      if is_pad d then
        match rest with
        | [] =>
            if is_pad c then Some [byte_of hi 16]
            else vc ← b64_value c;
                 let n := N.lor hi (N.shiftl vc 6) in
                 Some [byte_of n 16; byte_of n 8]
        | _ => None
        end
      else
        vc ← b64_value c; vd ← b64_value d;
        let n := N.lor (N.lor hi (N.shiftl vc 6)) vd in
        tl ← b64_decode_chars rest;
        Some (byte_of n 16 :: byte_of n 8 :: byte_of n 0 :: tl)
  | _ => None
  end.

(** Line breaks in the text are skipped. *)
Definition b64_decode (s : string) : option (list N) :=
  b64_decode_chars
    (List.filter (λ c, negb (Ascii.is_space c)) (String.list_ascii_of_string s)).

(** *** PNG *)

Definition png_signature : list N := [137; 80; 78; 71; 13; 10; 26; 10]%N.

Definition be32 (bs : list N) : N :=
  fold_left (λ acc b, N.lor (N.shiftl acc 8) b) bs 0%N.

Definition crc_step (crc : N) : N :=
  if N.testbit crc 0 then N.lxor (N.shiftr crc 1) 3988292384
  else N.shiftr crc 1.

Definition crc_byte (crc b : N) : N := Nat.iter 8 crc_step (N.lxor crc b).

Definition crc32 (bs : list N) : N :=
  N.lxor (fold_left crc_byte bs 4294967295%N) 4294967295.

Record chunk := Chunk {
  chunk_type : string;
  chunk_data : list N;
  chunk_crc : N
}.

Definition chunk_crc_ok (c : chunk) : bool :=
  (crc32 ((N_of_ascii <$> String.list_ascii_of_string (chunk_type c)) ++ chunk_data c)
   =? chunk_crc c)%N.

(** The chunks of a PNG stream after the signature: length, type, data, CRC;
    nothing may be left over. *)
Fixpoint png_chunks (fuel : nat) (bs : list N) : option (list chunk) :=
  match bs with
  | [] => Some []
  | _ =>
      match fuel with
      | O => None
      | S fuel' =>
          let len := N.to_nat (be32 (take 4 bs)) in
          let body := drop 8 bs in
          if decide (length bs < 12 + len)%nat then None
          else
            rest ← png_chunks fuel' (drop (len + 4) body);
            Some (Chunk (String.string_of_list_ascii (ascii_of_N <$> take 4 (drop 4 bs)))
                        (take len body)
                        (be32 (take 4 (drop len body)))
                  :: rest)
      end
  end.

Definition png_parse (bs : list N) : option (list chunk) :=
  if decide (take 8 bs = png_signature) then png_chunks (length bs) (drop 8 bs)
  else None.

Record png_header := PngHeader {
  png_width : N;
  png_height : N;
  png_depth : N;
  png_colour : N
}.

Global Instance png_header_eq_dec : EqDecision png_header.
Proof. solve_decision. Defined.

Definition png_ihdr (cs : list chunk) : option png_header :=
  match cs with
  | c :: _ =>
      let d := chunk_data c in
      if String.eqb (chunk_type c) "IHDR" && (length d =? 13)%nat
      then Some (PngHeader (be32 (take 4 d)) (be32 (take 4 (drop 4 d)))
                           (default 0%N (d !! 8%nat)) (default 0%N (d !! 9%nat)))
      else None
  | [] => None
  end.

(** *** What the source asks for *)

Fixpoint decimal_go (acc : N) (s : string) : option N :=
  match s with
  | EmptyString => Some acc
  | String c s' =>
      let n := N_of_ascii c in
      if ((48 <=? n) && (n <=? 57))%N then decimal_go (acc * 10 + (n - 48)) s'
      else None
  end.

Definition decimal (s : string) : option N :=
  match s with
  | EmptyString => None
  | _ => decimal_go 0 s
  end.

(** The mode and the size of the first [Image.new(MODE, (W, H))] in a token
    list, as written. *)
Fixpoint new_image_args (ts : list token) : option (string * string * string) :=
  match ts with
  | [] => None
  | t :: ts' =>
      match t, ts' with
      | TName f, TSym p1 :: TStr mode :: TSym c1 :: TSym p2 :: TName w
                 :: TSym c2 :: TName h :: TSym p3 :: _ =>
          if String.eqb f "Image.new" && Ascii.eqb p1 "(" && Ascii.eqb c1 ","
             && Ascii.eqb p2 "(" && Ascii.eqb c2 "," && Ascii.eqb p3 ")"
          then Some (mode, w, h)
          else new_image_args ts'
      | _, _ => new_image_args ts'
      end
  end.

(** PNG colour type of a PIL mode: 0 greyscale, 2 truecolour, 6 truecolour
    with alpha. *)
Definition colour_type_of_mode (mode : string) : option N :=
  if String.eqb mode "L" then Some 0%N
  else if String.eqb mode "RGB" then Some 2%N
  else if String.eqb mode "RGBA" then Some 6%N
  else None.

Definition requested_header (src : string) : option png_header :=
  '(mode, w, h) ← new_image_args (lex src);
  width ← decimal w; height ← decimal h; colour ← colour_type_of_mode mode;
  Some (PngHeader width height 8 colour).

Definition requested_repr (src : string) : option string :=
  '(mode, w, h) ← new_image_args (lex src);
  Some ("mode=" +:+ mode +:+ " size=" +:+ w +:+ "x" +:+ h).

Definition decoded_png (s : string) : option (list chunk) :=
  b64_decode s ≫= png_parse.

(** Chunk types, whether every CRC is right, and the header. *)
Definition png_summary (o : value)
    : option (list string * bool * option png_header) :=
  cs ← output_data "image/png" o ≫= decoded_png;
  Some (chunk_type <$> cs, forallb chunk_crc_ok cs, png_ihdr cs).

(** ** Shape of the cells (nbformat 4) *)

Definition keys (v : value) : list string :=
  match v with
  | VObj fs => fst <$> fs
  | _ => []
  end.

(** The value is an object with exactly the keys [ks], each once. *)
Definition has_exactly (ks : list string) (v : value) : bool :=
  bool_decide (NoDup (keys v) ∧ keys v ⊆ ks ∧ ks ⊆ keys v).

(** An output belongs to the run that gave the cell its counter. *)
Definition output_of_run (n : Z) (o : value) : bool :=
  bool_decide (output_count o = Some n)
  && String.eqb (str_field "output_type" o) "execute_result".

Definition outputs_agree (c : value) : bool :=
  match cell_execution_count c, cell_outputs c with
  | Some None, Some outs => match outs with [] => true | _ => false end
  | Some (Some n), Some outs => forallb (output_of_run n) outs
  | _, _ => false
  end.

Definition valid_cell (c : value) : bool :=
  if String.eqb (str_field "cell_type" c) "code" then
    has_exactly ["cell_type"; "source"; "metadata"; "execution_count"; "outputs"] c
    && outputs_agree c
  else if String.eqb (str_field "cell_type" c) "markdown" then
    has_exactly ["cell_type"; "source"; "metadata"] c
  else false.

Definition valid_notebook (nb : value) : bool :=
  has_exactly ["metadata"; "nbformat"; "nbformat_minor"; "cells"] nb
  && forallb valid_cell (nb_cells nb).

(** * Properties *)

Ltac forall_cells tac :=
  match goal with
  | |- Forall ?P ?l =>
      let l' := eval vm_compute in l in change (Forall P l')
  end;
  repeat (apply Forall_cons; split; [tac|]); constructor.

Ltac evaluate_list H :=
  match type of H with
  | Forall ?P ?l =>
      let l' := eval vm_compute in l in change (Forall P l') in H
  end.

(** ** The analyses on small inputs *)

Example lex_call :
  lex "os.mkdir('dir')" = [TName "os.mkdir"; TSym "("; TStr "dir"; TSym ")"].
Proof. reflexivity. Qed.

Example split_dot_path : split_dot "os.path.isdir" = ("os", "path.isdir").
Proof. reflexivity. Qed.

Example resolve_follows_import :
  snd (walk fresh_kernel 0 (lex "import os")) = []
  ∧ snd (walk (bind "os" (BModule "os") fresh_kernel) 0 (lex "os.rmdir('dir')"))
    = [Call (Os "rmdir") ["dir"]]
  ∧ snd (walk fresh_kernel 0 (lex "os.rmdir('dir')"))
    = [Call (Other "os.rmdir") ["dir"]].
Proof. repeat split. Qed.

Example nested_call_returns_first :
  snd (walk (bind "os" (BModule "os") fresh_kernel) 0
         (lex "os.listdir(os.getcwd())"))
  = [Call (Os "getcwd") []; Call (Os "listdir") []].
Proof. reflexivity. Qed.

(** The body of the here-document is not read as commands, except for the
    command substitution in it, which runs before [cat]. *)
Example heredoc_body_is_expanded :
  invoked Workspace.setup_init
  = ["pushd"; "wget"; "tar"; "popd"; "/workspace/bin/micromamba"; "cat";
     "source"; "micromamba"; "doit"].
Proof. reflexivity. Qed.

Example quoted_heredoc_is_not_expanded :
  invoked (block ["cat <<'EOT' > f"; "$(date)"; "EOT"; "ls"]) = ["cat"; "ls"]
  ∧ invoked (block ["cat <<EOT > f"; "$(date)"; "EOT"; "ls"])
    = ["date"; "cat"; "ls"].
Proof. split; reflexivity. Qed.

Example pil_demo_calls :
  cell_calls PilDemo.root
  = [[]; [Call (Pil "new") ["RGB"]]; [Call (PilObj "save") ["box.png"]];
     [Call (Pil "open") ["box.png"]]].
Proof. reflexivity. Qed.

(** ** The three documents *)

Lemma notebooks_are : notebooks = [VirtualDrive.root; PilDemo.root].
Proof. reflexivity. Qed.

Lemma task_names_are : task_names = ["setup"; "watch"; "docs"].
Proof. reflexivity. Qed.

Lemma all_tasks_named : named_tasks Workspace.root = ws_tasks Workspace.root.
Proof. reflexivity. Qed.

(** ** Stored execution state of the code cells *)

(** C1, as stated, fails: the PIL demo notebook was saved after a run.  Its
    first code cell already has a stored execution counter. *)
Lemma pil_demo_cells_were_executed :
  ¬ Forall (λ nb, Forall unexecuted (code_cells nb)) notebooks.
Proof.
  rewrite notebooks_are. intros H.
  apply Forall_cons_1 in H as [_ H]. apply Forall_cons_1 in H as [H _].
  apply Forall_cons_1 in H as [[_ H] _]. discriminate H.
Qed.

(** C1, amended: every code cell of the virtual-drive notebook has an empty
    outputs list and a null execution count.  The code cells of the PIL demo
    notebook carry the execution counts 1 to 4; the first and the third store
    no output, and the second and the fourth store one output each, of type
    [execute_result]. *)
Theorem virtual_drive_cells_unexecuted :
  Forall unexecuted (code_cells VirtualDrive.root)
  ∧ cell_execution_count <$> code_cells PilDemo.root
    = [Some (Some 1%Z); Some (Some 2%Z); Some (Some 3%Z); Some (Some 4%Z)]
  ∧ stored_outputs <$> code_cells PilDemo.root = [0; 1; 0; 1]%nat
  ∧ stored_output_types <$> code_cells PilDemo.root
    = [[]; ["execute_result"]; []; ["execute_result"]].
Proof.
  split; [|repeat split; reflexivity].
  forall_cells ltac:(split; reflexivity).
Qed.

(** ** Task fields *)

(** C2, as stated, fails: the tasks [watch] and [docs] have no [init]. *)
Lemma watch_task_has_no_init :
  ¬ Forall (λ t, has_script "init" t ∧ has_script "command" t)
      (named_tasks Workspace.root).
Proof.
  intros H. apply Forall_cons_1 in H as [_ H].
  apply Forall_cons_1 in H as [[[s H] _] _]. discriminate H.
Qed.

(** C2, amended: every task of the descriptor is named and has a [command]
    script; [setup] is the only task with an [init] script. *)
Theorem every_task_has_command :
  named_tasks Workspace.root = ws_tasks Workspace.root
  ∧ Forall (has_script "command") (named_tasks Workspace.root)
  ∧ task_name <$> List.filter (λ t, bool_decide (has_script "init" t))
                    (named_tasks Workspace.root)
    = [Some "setup"].
Proof.
  split; [reflexivity|]. split; [|reflexivity].
  forall_cells ltac:(eexists; reflexivity).
Qed.

(** ** Prebuild triggers and ports *)

(** C6: the descriptor declares the prebuild triggers [master],
    [pullRequests] and [pullRequestsFromForks] (all enabled), and a list of
    network ports: 5000, 8000 and 8888. *)
Theorem prebuild_triggers_and_ports :
  ws_prebuild "master" Workspace.root = Some (VBool true)
  ∧ ws_prebuild "pullRequests" Workspace.root = Some (VBool true)
  ∧ ws_prebuild "pullRequestsFromForks" Workspace.root = Some (VBool true)
  ∧ ws_port_numbers Workspace.root = Some [5000; 8000; 8888]%Z.
Proof. repeat split. Qed.

(** ** The trusted flag *)

(** C10: every code cell of the virtual-drive notebook has the metadata entry
    [trusted: true]; no code cell of the PIL demo notebook has a [trusted]
    entry. *)
Theorem trusted_flags :
  Forall (λ c, cell_meta "trusted" c = Some (VBool true))
    (code_cells VirtualDrive.root)
  ∧ Forall (λ c, cell_meta "trusted" c = None) (code_cells PilDemo.root).
Proof.
  split; forall_cells ltac:(reflexivity).
Qed.

(** ** Coordination between tasks *)

(** C3, as stated, fails on the task scripts: the [command] of [setup]
    signals [gp sync-done setup], and other tasks wait for it. *)
Lemma setup_command_signals_other_tasks :
  ¬ (Forall (λ s, py_syncs s = []) all_cell_sources
     ∧ Forall (λ s, script_syncs s = []) all_task_scripts).
Proof.
  intros [_ H]. apply Forall_cons_1 in H as [_ H].
  apply Forall_cons_1 in H as [H _]. discriminate H.
Qed.

(** C3, amended: no cell source of either notebook contains a
    synchronization primitive.  The task scripts do coordinate: the [command]
    of [setup] runs [gp sync-done setup] (its [init] has no primitive), and the
    [command] of [watch] and of [docs] each runs [gp sync-await setup]. *)
Theorem coordination_only_between_tasks :
  Forall (λ s, py_syncs s = [] ∧ script_syncs s = []) all_cell_sources
  ∧ (λ t, (task_name t, script_syncs <$> task_scripts t)) <$> ws_tasks Workspace.root
    = [ (Some "setup", [[]; [SyncDone "setup"]]);
        (Some "watch", [[SyncAwait "setup"]]);
        (Some "docs", [[SyncAwait "setup"]]) ].
Proof.
  split; [|reflexivity].
  apply (bool_decide_unpack _). vm_compute. exact I.
Qed.

(** ** File API calls of the virtual-drive notebook *)

Lemma virtual_drive_os_functions :
  os_functions VirtualDrive.root
  = ["getcwd"; "path.isdir"; "mkdir"; "getcwd"; "listdir"; "rmdir"; "getcwd";
     "listdir"; "path.exists"; "rename"; "path.exists"; "getcwd"; "listdir"].
Proof. reflexivity. Qed.

(** C4, as stated, fails in its last part: the cells also call [os.getcwd],
    which is none of the listed kinds. *)
Lemma getcwd_is_outside_listed_kinds :
  ¬ ((Forall (λ fn, fn ∈ os_functions VirtualDrive.root) listed_os_functions
      ∧ Forall (λ m, m ∈ open_modes VirtualDrive.root) listed_open_modes)
     ∧ Forall (λ c, is_Some (fs_kind_of c)) (file_api_calls VirtualDrive.root)).
Proof.
  intros [_ H]. evaluate_list H.
  apply Forall_cons_1 in H as [[k H] _]. discriminate H.
Qed.

(** C4, amended: the code cells of the virtual-drive notebook call each of
    [os.mkdir], [os.listdir], [os.rmdir], [open] with mode ['r'] and with mode
    ['w'], [os.path.exists], [os.path.isdir] and [os.rename]; every call of
    the file API either is of one of the listed kinds (the read of mode ['rb']
    and the file objects' [read] and [write] included) or is [os.getcwd]. *)
Theorem file_api_calls_listed_or_getcwd :
  (Forall (λ fn, fn ∈ os_functions VirtualDrive.root) listed_os_functions
   ∧ Forall (λ m, m ∈ open_modes VirtualDrive.root) listed_open_modes)
  ∧ Forall (λ c, is_Some (fs_kind_of c) ∨ call_target c = Os "getcwd")
      (file_api_calls VirtualDrive.root)
  ∧ open_modes VirtualDrive.root = ["w"; "r"; "rb"].
Proof.
  split; [|split; [|reflexivity]];
    apply (bool_decide_unpack _); vm_compute; exact I.
Qed.

(** ** Image-library calls *)

(** C5: the calls into the image library are exactly [Image.new],
    [Image.open] and the [save] method of an image: in the virtual-drive
    notebook [Image.new] and [img.save], in the PIL demo notebook [Image.new],
    [image.save] and [Image.open].  (The call [Image(...)] of the virtual-drive
    notebook comes after [from IPython.display import Image] and is not a call
    into the image library.) *)
Theorem pil_calls_are_new_open_save :
  pil_usage VirtualDrive.root = [Pil "new"; PilObj "save"]
  ∧ pil_usage PilDemo.root = [Pil "new"; PilObj "save"; Pil "open"]
  ∧ Forall (λ t, t ∈ listed_pil_calls) (concat (pil_usage <$> notebooks))
  ∧ Forall (λ t, t ∈ concat (pil_usage <$> notebooks)) listed_pil_calls.
Proof.
  split; [reflexivity|]. split; [reflexivity|].
  split; apply (bool_decide_unpack _); vm_compute; exact I.
Qed.

(** ** Independence of the notebooks and the descriptor *)

(** The host name [pillow.readthedocs.io] in a markdown cell of the PIL demo
    contains the letters of the task name [docs]; as a word it is
    [readthedocs], which is why references are matched word by word. *)
Lemma readthedocs_is_not_the_docs_task :
  Exists (λ s, mentions "docs" s = true ∧ "readthedocs" ∈ idents s) all_cell_sources
  ∧ Forall (λ s, "docs" ∉ idents s) all_cell_sources.
Proof.
  split; apply (bool_decide_unpack _); vm_compute; exact I.
Qed.

(** C7: no cell source of either notebook contains a word that refers to the
    descriptor (the platform's name, its [gp] tool, or a task name), and no
    task script mentions a notebook file. *)
Theorem notebooks_and_descriptor_independent :
  Forall (λ s, Forall (λ w, w ∉ descriptor_words) (idents s)) all_cell_sources
  ∧ Forall (λ s, Forall (λ m, mentions m s = false) notebook_markers)
      all_task_scripts.
Proof.
  split; apply (bool_decide_unpack _); vm_compute; exact I.
Qed.

(** ** Kinds of documents *)

(** C8, as stated, fails on the virtual-drive notebook: its cells also call
    [print] and IPython's [Image], which are neither file operations nor
    image-library calls. *)
Lemma virtual_drive_also_prints :
  ¬ Forall (λ d, fs_and_image_notebook d ∨ env_and_build_descriptor d) documents.
Proof.
  intros H. apply Forall_cons_1 in H as [[[_ H]|[H _]] _].
  - revert H. apply (bool_decide_unpack _). vm_compute. exact I.
  - exact H.
Qed.

(** C8, amended: every document is either an nbformat-4 notebook whose code
    cells call only file operations, the image library, [print] and IPython's
    display class [Image], or a YAML task descriptor whose scripts invoke
    [micromamba] and [doit]; there are two documents of the first kind and one
    of the second. *)
Theorem documents_are_notebooks_or_descriptor :
  Forall (λ d, fs_image_display_notebook d ∨ env_and_build_descriptor d) documents
  ∧ is_notebook4 <$> documents = [true; true; false]
  ∧ is_descriptor <$> documents = [false; false; true].
Proof.
  split; [|split; reflexivity].
  apply (bool_decide_unpack _). vm_compute. exact I.
Qed.

(** ** The virtual-drive notebook over the model drive *)

Lemma mkdir_then_rmdir (p : string) (s : gmap string node) :
  s !! p = None →
  fs_mkdir p s = Ok (<[p := Dir]> s) ∧ fs_rmdir p (<[p := Dir]> s) = Ok s.
Proof.
  intros Hp. unfold fs_mkdir, fs_rmdir.
  rewrite Hp, lookup_insert_eq, delete_insert_id by done. done.
Qed.

Lemma create_file (p : string) (s : gmap string node) :
  s !! p ≠ Some Dir → fs_create p s = Ok (<[p := File]> s).
Proof. unfold fs_create. by destruct (s !! p) as [[]|]. Qed.

Lemma rename_file (a b : string) (s : gmap string node) :
  s !! a = Some File → s !! b ≠ Some Dir →
  fs_rename a b s = Ok (<[b := File]> (delete a s)).
Proof. intros Ha Hb. unfold fs_rename. rewrite Ha. by destruct (s !! b) as [[]|]. Qed.

Lemma rename_moves_name (a b : string) (s s' : gmap string node) :
  a ≠ b → fs_rename a b s = Ok s' →
  fs_exists a s' = false ∧ b ∈ fs_listdir s'.
Proof.
  intros Hab. unfold fs_rename, fs_exists, fs_listdir.
  destruct (s !! a) as [n|] eqn:Ha; [|done].
  intros Hs'.
  assert (s' = <[b := n]> (delete a s)) as ->.
  { destruct n, (s !! b) as [[]|]; congruence. }
  split.
  - apply bool_decide_eq_false. rewrite lookup_insert_ne, lookup_delete_eq by done.
    by intros [? ?].
  - apply elem_of_dom. rewrite lookup_insert_eq. eauto.
Qed.

Lemma virtual_drive_calls :
  notebook_calls VirtualDrive.root
  = [ Call (Os "getcwd") [];
      Call (Os "path.isdir") ["dir"];
      Call (Os "mkdir") ["dir"];
      Call (Os "getcwd") []; Call (Os "listdir") [];
      Call (Os "rmdir") ["dir"];
      Call (Os "getcwd") []; Call (Os "listdir") [];
      Call Open ["test.txt"; "w"];
      Call (FileObj "write") ["Hello! I write this from the kernel worker"];
      Call Open ["test.txt"; "r"];
      Call (FileObj "read") []; Call (Other "print") [];
      Call (Pil "new") ["RGB"]; Call (PilObj "save") ["pil_color.png"];
      Call Open ["pil_color.png"; "rb"]; Call (FileObj "read") [];
      Call (Other "print") []; Call (Other "Image") [];
      Call (Os "path.exists") ["test.txt"];
      Call (Os "rename") ["test.txt"; "test_rename.txt"];
      Call (Os "path.exists") ["test.txt"];
      Call (Os "getcwd") []; Call (Os "listdir") [] ].
Proof. reflexivity. Qed.

Lemma run_cons_ok (c : call) (cs : list call) (s s' s'' : gmap string node)
    (o : obs) (os : list obs) :
  exec c s = Ok (s', o) → run cs s' = Ok (s'', os) →
  run (c :: cs) s = Ok (s'', o :: os).
Proof. intros Hc Hcs. cbn [run]. by rewrite Hc, Hcs. Qed.

Lemma quiet_ok (r : outcome (gmap string node)) (s : gmap string node) :
  r = Ok s → quiet r = Ok (s, ONone).
Proof. by intros ->. Qed.

Ltac pure_call := eapply run_cons_ok; [reflexivity|].
Ltac drive_call H := eapply run_cons_ok; [apply quiet_ok, H|].

Lemma run_cons_raise (c : call) (cs : list call) (s s' : gmap string node)
    (o : obs) (e : os_error) :
  exec c s = Raise e ∨ (exec c s = Ok (s', o) ∧ run cs s' = Raise e) →
  run (c :: cs) s = Raise e.
Proof. intros [Hc|[Hc Hcs]]; cbn [run]; by rewrite Hc, ?Hcs. Qed.

(** The first hypothesis of the run is needed: on a drive that already has an
    entry [dir], the cell that calls [os.mkdir] raises. *)
Lemma run_raises_when_dir_exists (s0 : gmap string node) (n : node) :
  s0 !! "dir" = Some n →
  run (notebook_calls VirtualDrive.root) s0 = Raise FileExistsError.
Proof.
  intros Hdir. rewrite virtual_drive_calls.
  do 2 (eapply run_cons_raise; right; split; [reflexivity|]).
  eapply (run_cons_raise _ _ _ s0 ONone). left.
  cbn. unfold fs_mkdir. by rewrite Hdir.
Qed.

(** ** The runs on the model drive, in closed form *)

Lemma run_app (xs ys : list call) (s : gmap string node) :
  run (xs ++ ys) s
  = match run xs s with
    | Raise e => Raise e
    | Ok (s', os) =>
        match run ys s' with
        | Raise e => Raise e
        | Ok (s'', os') => Ok (s'', os ++ os')
        end
    end.
Proof.
  revert s. induction xs as [|c xs IH]; intros s; cbn [run app].
  - by destruct (run ys s) as [[? ?]|].
  - destruct (exec c s) as [[s' o]|]; [|done]. rewrite IH.
    destruct (run xs s') as [[s'' os]|]; [|done].
    by destruct (run ys s'') as [[? ?]|].
Qed.

Lemma virtual_drive_run_ok (s0 : gmap string node) :
  s0 !! "dir" = None → ¬ blocked_by_directory s0 →
  run (notebook_calls VirtualDrive.root) s0
  = Ok (virtual_drive_final s0,
        virtual_drive_trace (fs_listdir s0) (fs_listdir (virtual_drive_final s0))).
Proof.
  intros Hdir Hfree.
  assert (Htxt : s0 !! "test.txt" ≠ Some Dir) by (intros ?; apply Hfree; by left).
  assert (Hpng : s0 !! "pil_color.png" ≠ Some Dir)
    by (intros ?; apply Hfree; right; by left).
  assert (Hren : s0 !! "test_rename.txt" ≠ Some Dir)
    by (intros ?; apply Hfree; right; by right).
  rewrite virtual_drive_calls. unfold virtual_drive_final.
  destruct (mkdir_then_rmdir "dir" s0 Hdir) as [Hmk Hrm].
  set (s_txt := <["test.txt" := File]> s0).
  set (s_png := <["pil_color.png" := File]> s_txt).
  set (s_end := <["test_rename.txt" := File]> (delete "test.txt" s_png)).
  assert (Hw : fs_create "test.txt" s0 = Ok s_txt) by by apply create_file.
  assert (Hr : fs_read "test.txt" s_txt = Ok s_txt).
  { unfold fs_read, s_txt. by rewrite lookup_insert_eq. }
  assert (Hsave : fs_create "pil_color.png" s_txt = Ok s_png).
  { apply create_file. unfold s_txt. by rewrite lookup_insert_ne. }
  assert (Hrb : fs_read "pil_color.png" s_png = Ok s_png).
  { unfold fs_read, s_png. by rewrite lookup_insert_eq. }
  assert (Htxt' : s_png !! "test.txt" = Some File).
  { unfold s_png, s_txt. by rewrite lookup_insert_ne, lookup_insert_eq. }
  assert (Hmv : fs_rename "test.txt" "test_rename.txt" s_png = Ok s_end).
  { apply rename_file; [done|]. unfold s_png, s_txt. by rewrite !lookup_insert_ne. }
  destruct (rename_moves_name "test.txt" "test_rename.txt" s_png s_end)
    as [Hgone _]; [done..|].
  unfold virtual_drive_trace. cbn [replicate app].
  pure_call.
  eapply run_cons_ok; [cbn; unfold fs_isdir; by rewrite Hdir|].
  drive_call Hmk. pure_call.
  eapply run_cons_ok; [cbn; unfold fs_listdir; by rewrite dom_insert_L|].
  drive_call Hrm. do 2 pure_call.
  drive_call Hw. pure_call. drive_call Hr. do 3 pure_call.
  drive_call Hsave. drive_call Hrb. do 3 pure_call.
  eapply run_cons_ok; [cbn; unfold fs_exists; by rewrite Htxt'|].
  drive_call Hmv.
  eapply run_cons_ok; [cbn; by rewrite Hgone|].
  do 2 pure_call. reflexivity.
Qed.

Ltac pure_then := eapply run_cons_raise; right; split; [reflexivity|].
Ltac drive_then H :=
  eapply run_cons_raise; right; split; [apply quiet_ok, H|].
Ltac raise_here :=
  match goal with
  | |- run (?c :: ?cs) ?s = Raise ?e =>
      apply (run_cons_raise c cs s s ONone e); left
  end.

Lemma virtual_drive_run_blocked (s0 : gmap string node) :
  s0 !! "dir" = None → blocked_by_directory s0 →
  run (notebook_calls VirtualDrive.root) s0 = Raise IsADirectoryError.
Proof.
  intros Hdir Hblocked. rewrite virtual_drive_calls.
  destruct (mkdir_then_rmdir "dir" s0 Hdir) as [Hmk Hrm].
  pure_then.
  eapply run_cons_raise; right; split; [reflexivity|].
  drive_then Hmk. do 2 pure_then. drive_then Hrm. do 2 pure_then.
  destruct (decide (s0 !! "test.txt" = Some Dir)) as [Htxt|Htxt].
  { raise_here. cbn. unfold fs_create. by rewrite Htxt. }
  set (s_txt := <["test.txt" := File]> s0).
  assert (Hw : fs_create "test.txt" s0 = Ok s_txt) by by apply create_file.
  assert (Hr : fs_read "test.txt" s_txt = Ok s_txt).
  { unfold fs_read, s_txt. by rewrite lookup_insert_eq. }
  drive_then Hw. pure_then. drive_then Hr. do 3 pure_then.
  destruct (decide (s0 !! "pil_color.png" = Some Dir)) as [Hpng|Hpng].
  { raise_here. cbn. unfold fs_create, s_txt.
    by rewrite lookup_insert_ne, Hpng. }
  set (s_png := <["pil_color.png" := File]> s_txt).
  assert (Hsave : fs_create "pil_color.png" s_txt = Ok s_png).
  { apply create_file. unfold s_txt. by rewrite lookup_insert_ne. }
  assert (Hrb : fs_read "pil_color.png" s_png = Ok s_png).
  { unfold fs_read, s_png. by rewrite lookup_insert_eq. }
  drive_then Hsave. drive_then Hrb. do 4 pure_then.
  assert (Hren : s0 !! "test_rename.txt" = Some Dir).
  { by destruct Hblocked as [?|[?|?]]. }
  raise_here. cbn. unfold fs_rename, s_png, s_txt.
  rewrite lookup_insert_ne, lookup_insert_eq by done.
  by rewrite !lookup_insert_ne, Hren.
Qed.

Lemma virtual_drive_run_closed (s0 : gmap string node) :
  run (notebook_calls VirtualDrive.root) s0 = virtual_drive_outcome s0.
Proof.
  unfold virtual_drive_outcome.
  destruct (decide (is_Some (s0 !! "dir"))) as [[n Hn]|Hdir].
  { by apply (run_raises_when_dir_exists s0 n). }
  apply eq_None_not_Some in Hdir.
  destruct (decide (blocked_by_directory s0)).
  - by apply virtual_drive_run_blocked.
  - by apply virtual_drive_run_ok.
Qed.

Lemma virtual_drive_final_lookup (s : gmap string node) (n : string) :
  virtual_drive_final s !! n
  = if decide (n = "test_rename.txt") then Some File
    else if decide (n = "test.txt") then None
    else if decide (n = "pil_color.png") then Some File
    else s !! n.
Proof.
  unfold virtual_drive_final.
  repeat case_decide; subst; simplify_map_eq; done.
Qed.

Lemma virtual_drive_run_inv (s0 s1 : gmap string node) (tr : list obs) :
  run (notebook_calls VirtualDrive.root) s0 = Ok (s1, tr) →
  s0 !! "dir" = None ∧ ¬ blocked_by_directory s0 ∧ s1 = virtual_drive_final s0
  ∧ tr = virtual_drive_trace (fs_listdir s0) (fs_listdir s1).
Proof.
  rewrite virtual_drive_run_closed. unfold virtual_drive_outcome.
  destruct (decide (is_Some (s0 !! "dir"))) as [|Hdir]; [done|].
  destruct (decide (blocked_by_directory s0)); [done|].
  intros [= <- <-]. by apply eq_None_not_Some in Hdir.
Qed.






(** X1: run on the model drive, where the first exception ends the run, the
    virtual-drive notebook raises [FileExistsError] exactly when the drive
    already has an entry [dir]; otherwise it raises [IsADirectoryError]
    exactly when [test.txt], [pil_color.png] or [test_rename.txt] is a
    directory; otherwise it completes and leaves the drive
    [virtual_drive_final]. *)
Theorem virtual_drive_run_result (s0 : gmap string node) :
  outcome_drive (run (notebook_calls VirtualDrive.root) s0)
  = if decide (is_Some (s0 !! "dir")) then Raise FileExistsError
    else if decide (blocked_by_directory s0) then Raise IsADirectoryError
    else Ok (virtual_drive_final s0).
Proof.
  rewrite virtual_drive_run_closed. unfold virtual_drive_outcome.
  by repeat case_decide.
Qed.

(** X2: when the virtual-drive notebook completes, it leaves no [test.txt],
    leaves [pil_color.png] and [test_rename.txt] as files, and leaves every
    other entry of the drive as it was (the directory [dir] it made is gone
    again). *)
Theorem virtual_drive_net_effect (s0 s1 : gmap string node) (tr : list obs) :
  run (notebook_calls VirtualDrive.root) s0 = Ok (s1, tr) →
  s1 !! "test.txt" = None
  ∧ s1 !! "pil_color.png" = Some File
  ∧ s1 !! "test_rename.txt" = Some File
  ∧ ∀ n : string,
      n ∉ ["test.txt"; "pil_color.png"; "test_rename.txt"] → s1 !! n = s0 !! n.
Proof.
  intros (_ & _ & -> & _)%virtual_drive_run_inv.
  repeat split; [by rewrite virtual_drive_final_lookup..|].
  intros n Hn. rewrite virtual_drive_final_lookup.
  repeat case_decide; subst; [exfalso; apply Hn; set_solver..|done].
Qed.

(** X2 on the empty drive. *)
Lemma virtual_drive_net_effect_on_empty_drive :
  virtual_drive_final ∅ !! "test.txt" = None
  ∧ virtual_drive_final ∅ !! "pil_color.png" = Some File
  ∧ virtual_drive_final ∅ !! "test_rename.txt" = Some File
  ∧ ∀ n : string,
      n ∉ ["test.txt"; "pil_color.png"; "test_rename.txt"] →
      virtual_drive_final ∅ !! n = (∅ : gmap string node) !! n.
Proof.
  apply (virtual_drive_net_effect ∅ (virtual_drive_final ∅)
           (virtual_drive_trace ∅ (fs_listdir (virtual_drive_final ∅)))).
  vm_compute. reflexivity.
Defined.

Lemma virtual_drive_final_idemp (s : gmap string node) :
  virtual_drive_final (virtual_drive_final s) = virtual_drive_final s.
Proof.
  apply map_eq. intros n. rewrite !virtual_drive_final_lookup.
  by repeat case_decide.
Qed.

(** X3: the virtual-drive notebook can be run again on the drive it leaves
    behind: the second run completes too and leaves the drive unchanged. *)
Theorem virtual_drive_rerun (s0 s1 : gmap string node) (tr : list obs) :
  run (notebook_calls VirtualDrive.root) s0 = Ok (s1, tr) →
  run (notebook_calls VirtualDrive.root) s1
  = Ok (s1, virtual_drive_trace (fs_listdir s1) (fs_listdir s1)).
Proof.
  intros (Hdir & _ & -> & _)%virtual_drive_run_inv.
  rewrite virtual_drive_run_ok, virtual_drive_final_idemp; [done|..].
  - by rewrite virtual_drive_final_lookup.
  - unfold blocked_by_directory. rewrite !virtual_drive_final_lookup.
    by intros [?|[?|?]].
Qed.

(** X3 after a run on the empty drive. *)
Lemma virtual_drive_rerun_on_empty_drive :
  run (notebook_calls VirtualDrive.root) (virtual_drive_final ∅)
  = Ok (virtual_drive_final ∅,
        virtual_drive_trace (fs_listdir (virtual_drive_final ∅))
          (fs_listdir (virtual_drive_final ∅))).
Proof.
  apply (virtual_drive_rerun ∅ (virtual_drive_final ∅)
           (virtual_drive_trace ∅ (fs_listdir (virtual_drive_final ∅)))).
  vm_compute. reflexivity.
Defined.

Lemma pil_demo_calls_flat :
  notebook_calls PilDemo.root
  = [ Call (Pil "new") ["RGB"]; Call (PilObj "save") ["box.png"];
      Call (Pil "open") ["box.png"] ].
Proof. reflexivity. Qed.

(** X4: run on the model drive, the PIL demo notebook raises
    [IsADirectoryError] exactly when [box.png] is a directory; otherwise it
    completes and [box.png] is a file: [Image.open] reads what [image.save]
    wrote, whether or not [box.png] existed before. *)
Theorem pil_demo_run_spec (s0 : gmap string node) :
  run (notebook_calls PilDemo.root) s0 = pil_demo_outcome s0.
Proof.
  rewrite pil_demo_calls_flat. unfold pil_demo_outcome.
  destruct (decide (s0 !! "box.png" = Some Dir)) as [Hbox|Hbox].
  - pure_then. raise_here. cbn. unfold fs_create. by rewrite Hbox.
  - pure_call. drive_call (create_file "box.png" s0 Hbox).
    eapply run_cons_ok; [|reflexivity].
    apply quiet_ok. unfold fs_read. by rewrite lookup_insert_eq.
Qed.

Lemma virtual_drive_final_insert (s : gmap string node) :
  virtual_drive_final (<["box.png" := File]> s)
  = <["box.png" := File]> (virtual_drive_final s).
Proof.
  apply map_eq. intros k.
  destruct (decide (k = "box.png")) as [->|Hk].
  - by rewrite lookup_insert_eq, virtual_drive_final_lookup, lookup_insert_eq.
  - rewrite lookup_insert_ne, !virtual_drive_final_lookup by done.
    repeat case_decide; try done. by rewrite lookup_insert_ne.
Qed.

Lemma completes_outcome (cs : list call) (s : gmap string node) :
  completes cs s ↔ ∃ s', outcome_drive (run cs s) = Ok s'.
Proof.
  unfold completes. destruct (run cs s) as [[s1 tr]|e]; cbn.
  - split; [intros _; by exists s1|intros _; by exists s1, tr].
  - split; [by intros (? & ? & ?)|by intros (? & ?)].
Qed.

Lemma virtual_drive_then_pil_demo (s0 : gmap string node) :
  outcome_drive
    (run (notebook_calls VirtualDrive.root ++ notebook_calls PilDemo.root) s0)
  = if decide (is_Some (s0 !! "dir")) then Raise FileExistsError
    else if decide (blocked_by_directory s0) then Raise IsADirectoryError
    else if decide (s0 !! "box.png" = Some Dir) then Raise IsADirectoryError
    else Ok (<["box.png" := File]> (virtual_drive_final s0)).
Proof.
  rewrite run_app, virtual_drive_run_closed. unfold virtual_drive_outcome.
  repeat case_decide; try done.
  - rewrite pil_demo_run_spec. unfold pil_demo_outcome.
    by rewrite decide_True by by rewrite virtual_drive_final_lookup.
  - rewrite pil_demo_run_spec. unfold pil_demo_outcome.
    by rewrite decide_False by by rewrite virtual_drive_final_lookup.
Qed.

Lemma pil_demo_then_virtual_drive (s0 : gmap string node) :
  outcome_drive
    (run (notebook_calls PilDemo.root ++ notebook_calls VirtualDrive.root) s0)
  = if decide (s0 !! "box.png" = Some Dir) then Raise IsADirectoryError
    else if decide (is_Some (s0 !! "dir")) then Raise FileExistsError
    else if decide (blocked_by_directory s0) then Raise IsADirectoryError
    else Ok (<["box.png" := File]> (virtual_drive_final s0)).
Proof.
  rewrite run_app, pil_demo_run_spec. unfold pil_demo_outcome.
  destruct (decide (s0 !! "box.png" = Some Dir)); [done|].
  rewrite virtual_drive_run_closed. unfold virtual_drive_outcome.
  assert (Hdir : is_Some (<["box.png" := File]> s0 !! "dir") ↔ is_Some (s0 !! "dir"))
    by by rewrite lookup_insert_ne.
  assert (Hblk : blocked_by_directory (<["box.png" := File]> s0)
                 ↔ blocked_by_directory s0)
    by (unfold blocked_by_directory; by rewrite !lookup_insert_ne).
  destruct (decide (is_Some (s0 !! "dir"))).
  { by rewrite decide_True by by apply Hdir. }
  rewrite (decide_False (P := is_Some (<["box.png" := File]> s0 !! "dir")))
    by by rewrite Hdir.
  destruct (decide (blocked_by_directory s0)).
  { by rewrite decide_True by by apply Hblk. }
  rewrite (decide_False (P := blocked_by_directory (<["box.png" := File]> s0)))
    by by rewrite Hblk.
  cbn. by rewrite virtual_drive_final_insert.
Qed.

Lemma guarded_ok_iff (P Q R : Prop) `{!Decision P, !Decision Q, !Decision R}
    (e1 e2 e3 : os_error) (x : gmap string node) :
  (∃ s', (if decide P then Raise e1
          else if decide Q then Raise e2
          else if decide R then Raise e3 else Ok x) = Ok s')
  ↔ ¬ P ∧ ¬ Q ∧ ¬ R.
Proof.
  destruct (decide P); [split; [by intros [? ?]|by intros (? & _)]|].
  destruct (decide Q); [split; [by intros [? ?]|by intros (_ & ? & _)]|].
  destruct (decide R); [split; [by intros [? ?]|by intros (_ & _ & ?)]|].
  split; [done|intros _; by exists x].
Qed.

Lemma guarded_ok_inv (P Q R : Prop) `{!Decision P, !Decision Q, !Decision R}
    (e1 e2 e3 : os_error) (x s' : gmap string node) :
  Ok s' = (if decide P then Raise e1
           else if decide Q then Raise e2
           else if decide R then Raise e3 else Ok x) →
  s' = x.
Proof. repeat case_decide; congruence. Qed.

(** X5: the two notebooks do not interfere on a shared drive when they run to
    completion.  Running the virtual-drive notebook and then the PIL demo
    raises no exception exactly when the other order raises none: when the
    drive has no entry [dir] and none of [test.txt], [pil_color.png],
    [test_rename.txt], [box.png] is a directory.  Both orders then leave the
    same drive.  Nothing is said of the drive a run that raises leaves behind. *)
Theorem notebooks_commute_on_drive (s0 : gmap string node) :
  (completes (notebook_calls VirtualDrive.root ++ notebook_calls PilDemo.root) s0
   ↔ s0 !! "dir" = None ∧ ¬ blocked_by_directory s0 ∧ s0 !! "box.png" ≠ Some Dir)
  ∧ (completes (notebook_calls PilDemo.root ++ notebook_calls VirtualDrive.root) s0
     ↔ s0 !! "dir" = None ∧ ¬ blocked_by_directory s0 ∧ s0 !! "box.png" ≠ Some Dir)
  ∧ ∀ (s1 s2 : gmap string node) (t1 t2 : list obs),
      run (notebook_calls VirtualDrive.root ++ notebook_calls PilDemo.root) s0
      = Ok (s1, t1) →
      run (notebook_calls PilDemo.root ++ notebook_calls VirtualDrive.root) s0
      = Ok (s2, t2) →
      s1 = s2 ∧ s1 = <["box.png" := File]> (virtual_drive_final s0).
Proof.
  pose proof (virtual_drive_then_pil_demo s0) as H1.
  pose proof (pil_demo_then_virtual_drive s0) as H2.
  split; [|split].
  - rewrite completes_outcome, H1, guarded_ok_iff, eq_None_not_Some. tauto.
  - rewrite completes_outcome, H2, guarded_ok_iff, eq_None_not_Some. tauto.
  - intros s1 s2 t1 t2 Hr1 Hr2. rewrite Hr1 in H1. rewrite Hr2 in H2.
    apply guarded_ok_inv in H1. apply guarded_ok_inv in H2. by subst.
Qed.

(** ** Stored outputs and the shape of the cells *)

(** ** The decoders on known values *)

Example b64_decode_foobar :
  b64_decode "Zm9vYmFy" = Some [102; 111; 111; 98; 97; 114]%N
  ∧ b64_decode "Zm9vYg==" = Some [102; 111; 111; 98]%N
  ∧ b64_decode "Zm9vYmE=" = Some [102; 111; 111; 98; 97]%N
  ∧ b64_decode "Zm9" = None.
Proof. repeat split. Qed.

Example crc32_check_value :
  crc32 (N_of_ascii <$> String.list_ascii_of_string "123456789") = 3421780262%N.
Proof. vm_compute. reflexivity. Qed.

Example valid_cell_rejects :
  valid_cell (VObj [("cell_type", VStr "code"); ("source", VStr "x")]) = false
  ∧ valid_cell (VObj [("cell_type", VStr "markdown"); ("source", VStr "x");
                      ("metadata", VObj []); ("outputs", VArr [])]) = false
  ∧ valid_cell (VObj [("cell_type", VStr "raw"); ("source", VStr "x");
                      ("metadata", VObj [])]) = false.
Proof. repeat split. Qed.


(** X9: both notebooks have the shape of nbformat 4.4: the notebook object
    has exactly the keys metadata, nbformat, nbformat_minor and cells; a
    markdown cell has exactly cell_type, source and metadata; a code cell has
    those and execution_count and outputs; a cell with a null counter stores no
    output, and every stored output is an execute_result that carries its
    cell's counter. *)
Theorem notebooks_are_valid_nbformat4 :
  Forall (λ nb, valid_notebook nb) notebooks
  ∧ Forall (λ nb, field "nbformat" nb = Some (VNum 4)
                  ∧ field "nbformat_minor" nb = Some (VNum 4)) notebooks.
Proof.
  split.
  - apply (bool_decide_unpack _). vm_compute. exact I.
  - rewrite notebooks_are. repeat (apply Forall_cons; split; [by split|]).
    constructor.
Qed.

(** X10: the image stored in the outputs of the PIL demo is the image its
    source asks for.  Both stored image/png texts decode (base64) to a PNG
    stream with the chunks IHDR, IDAT, IEND, every CRC right, and a header of
    100 by 100 pixels, 8 bits, truecolour: the size and mode of
    [Image.new(RGB, (100, 100))] in the source; both text/plain renderings
    name the same mode and size. *)
Theorem stored_png_matches_source :
  omap requested_header (cell_source <$> code_cells PilDemo.root)
  = [PngHeader 100 100 8 2]
  ∧ png_summary <$> all_outputs PilDemo.root
    = replicate 2 (Some (["IHDR"; "IDAT"; "IEND"], true,
                         Some (PngHeader 100 100 8 2)))
  ∧ omap requested_repr (cell_source <$> code_cells PilDemo.root)
    = ["mode=RGB size=100x100"]
  ∧ Forall (λ o, from_option (mentions "mode=RGB size=100x100") false
                   (output_data "text/plain" o))
      (all_outputs PilDemo.root).
Proof.
  split; [vm_compute; reflexivity|]. split; [vm_compute; reflexivity|].
  split; [vm_compute; reflexivity|].
  apply (bool_decide_unpack _). vm_compute. exact I.
Qed.
